(** * scripts/plot.py: the scatter plot of the "initial" and "wsp" point sets

    The script reads [initial.csv] and [wsp.csv], turns every row into a
    list of floats, builds one NumPy array per file, prints the first one
    and scatters the first two columns of each array on shared axes.

    The embedding is shallow.  The script is a computation in a small
    state-and-exception monad over a [world]: the environment the script
    could consume (command line, standard input, working directory) and the
    chronological list of the calls it makes (files, standard output, the
    charting library).  An exception keeps the world reached so far, as an
    uncaught Python exception does; nothing in the script catches one.

    What the script imports is not part of the repository.  The builtin
    [float], [csv.reader] and the NumPy release are parameters of the
    development ([Runtime]); [np.array], the [a[:, j]] index and
    [ax.scatter] are modelled by their documented behaviour on the values
    this script hands them.  Left out: the text NumPy and the interpreter
    write (how an array is rendered, warnings, the traceback of an uncaught
    exception), errors of [csv.reader] itself and of text decoding, and
    failures of the charting backend. *)

From Stdlib Require Import String List Bool Arith Lia ZArith DecimalString.
Import ListNotations.
Local Open Scope string_scope.
Local Open Scope list_scope.

(** ** Python exceptions and results *)

Inductive exn : Type :=
| FileNotFoundError
| ValueError
| IndexError.

Inductive result (A : Type) : Type :=
| Ok (a : A)
| Raise (e : exn).

Arguments Ok {A} a.
Arguments Raise {A} e.

Definition failed {A : Type} (r : result A) : bool :=
  match r with Ok _ => false | Raise _ => true end.

(** ** What the script imports *)

(** The interface of the imported code that is not part of the repository.
    - [pyfloat]: Python's [float] values;
    - [float s]: the builtin [float] on a string, [None] standing for the
      [ValueError] it raises;
    - [csv_reader text]: the rows [csv.reader(fd)] yields on a file's text,
      each a list of fields;
    - [ragged_raises]: [np.array] on rows of unequal lengths; NumPy 1.24 and
      later raise [ValueError] ([true]), earlier releases build a
      one-dimensional array of list objects ([false]). *)
Class Runtime : Type := {
  pyfloat : Type;
  float : string -> option pyfloat;
  csv_reader : string -> list (list string);
  ragged_raises : bool
}.

Section Model.

Context {R : Runtime}.

(** ** Arrays *)

(** The arrays [np.array] can return on a list of lists of floats:
    one-dimensional (the empty array, or an object array holding the row
    lists), or two-dimensional with [ncols] columns. *)
Inductive ndarray : Type :=
| Array1 (items : list (list pyfloat))
| Array2 (ncols : nat) (rows : list (list pyfloat)).

Definition shape (a : ndarray) : list nat :=
  match a with
  | Array1 items => [length items]
  | Array2 ncols rows => [length rows; ncols]
  end.

Definition same_length {A : Type} (r : list A) (rs : list (list A)) : bool :=
  forallb (fun r' => Nat.eqb (length r') (length r)) rs.

(** [np.array(data)] *)
Definition np_array (data : list (list pyfloat)) : result ndarray :=
  match data with
  | [] => Ok (Array1 [])
  | r :: rs =>
      if same_length r rs then Ok (Array2 (length r) data)
      else if ragged_raises then Raise ValueError
      else Ok (Array1 data)
  end.

Fixpoint pick (j : nat) (rows : list (list pyfloat)) : option (list pyfloat) :=
  match rows with
  | [] => Some []
  | r :: rs =>
      match nth_error r j, pick j rs with
      | Some x, Some c => Some (x :: c)
      | _, _ => None
      end
  end.

(** [a[:, j]]: two indices on a one-dimensional array, or a column past
    the last one, raise [IndexError]. *)
Definition column (a : ndarray) (j : nat) : result (list pyfloat) :=
  match a with
  | Array1 _ => Raise IndexError
  | Array2 ncols rows =>
      if Nat.ltb j ncols then
        match pick j rows with
        | Some c => Ok c
        | None => Raise IndexError
        end
      else Raise IndexError
  end.

(** [a[i, j]], for stating what an array holds. *)
Definition entry (a : ndarray) (i j : nat) : option pyfloat :=
  match a with
  | Array1 _ => None
  | Array2 ncols rows =>
      if Nat.ltb j ncols then
        match nth_error rows i with
        | Some r => nth_error r j
        | None => None
        end
      else None
  end.

(** ** The world and the calls the script makes *)

Inductive mode : Type := ReadText | WriteText.

(** The calls a script of this kind can make to its environment.  The
    script under study makes some of them only; the others are here so that
    their absence can be stated. *)
Inductive event : Type :=
| EvOpen (path : string) (m : mode)
| EvClose (path : string)
| EvPrint (a : ndarray)
| EvSubplots
| EvScatter (x y : list pyfloat) (label : string) (marker : option string)
| EvLegend
| EvShow
| EvSavefig (path : string).

(** What a run can consume: command line, standard input, and the working
    directory as a map from file names to texts. *)
Record environ : Type := Environ {
  argv : list string;
  stdin : string;
  files : string -> option string
}.

Record world : Type := World {
  env : environ;
  events : list event
}.

Definition log (ev : event) (w : world) : world :=
  World (env w) (events w ++ [ev]).

(** ** The monad *)

Definition M (A : Type) : Type := world -> result A * world.

Definition ret {A : Type} (a : A) : M A := fun w => (Ok a, w).

Definition bind {A B : Type} (m : M A) (k : A -> M B) : M B :=
  fun w =>
    match m w with
    | (Ok a, w') => k a w'
    | (Raise e, w') => (Raise e, w')
    end.

Definition lift {A : Type} (r : result A) : M A := fun w => (r, w).

Definition emit (ev : event) : M unit := fun w => (Ok tt, log ev w).

(** [try: m finally: h], with a handler that does not raise. *)
Definition finally {A : Type} (m : M A) (h : M unit) : M A :=
  fun w => let (r, w') := m w in (r, snd (h w')).

End Model.

Notation "x <- m ;; k" := (bind m (fun x => k))
  (at level 61, m at next level, right associativity).
Notation "m ;; k" := (bind m (fun _ => k))
  (at level 61, right associativity).

Section Script.

Context {R : Runtime}.

(** ** Builtins and library calls *)

(** [open(path)], in the default mode: read-only text. *)
Definition open (path : string) : M string :=
  fun w =>
    match files (env w) path with
    | Some text => (Ok text, log (EvOpen path ReadText) w)
    | None => (Raise FileNotFoundError, log (EvOpen path ReadText) w)
    end.

(** [with open(path) as fd: body]: the file is closed when the block is
    left, by an exception too. *)
Definition with_open {A : Type} (path : string) (body : string -> M A) : M A :=
  fd <- open path ;;
  finally (body fd) (emit (EvClose path)).

Definition print (a : ndarray) : M unit := emit (EvPrint a).
Definition subplots : M unit := emit EvSubplots.
(** [ax.scatter(x, y, label=..., marker=...)]; [marker] is [None] when
    the call leaves it to its default.  The call raises [ValueError] when
    [x] and [y] differ in size. *)
Definition scatter (x y : list pyfloat) (label : string)
    (marker : option string) : M unit :=
  if Nat.eqb (length x) (length y) then emit (EvScatter x y label marker)
  else lift (Raise ValueError).
Definition legend : M unit := emit EvLegend.
Definition show : M unit := emit EvShow.

(** ** The script *)

(** [[float(i) for i in row]] *)
Fixpoint float_row (row : list string) : result (list pyfloat) :=
  match row with
  | [] => Ok []
  | i :: row' =>
      match float i with
      | None => Raise ValueError
      | Some x =>
          match float_row row' with
          | Ok xs => Ok (x :: xs)
          | Raise e => Raise e
          end
      end
  end.

(** [for row in reader: data.append([float(i) for i in row])] *)
Fixpoint for_rows (reader : list (list string)) (data : list (list pyfloat))
    : result (list (list pyfloat)) :=
  match reader with
  | [] => Ok data
  | row :: reader' =>
      match float_row row with
      | Ok r => for_rows reader' (data ++ [r])
      | Raise e => Raise e
      end
  end.

(** Lines 6-11, and again lines 14-19 with the other file name: the loader
    the script writes out twice. *)
Definition csv_loader (path : string) : M ndarray :=
  data <- with_open path (fun fd => lift (for_rows (csv_reader fd) [])) ;;
  lift (np_array data).

(** What the loader computes from a file's text, its file calls left out
    (see [csv_loader_eq]). *)
Definition array_of (text : string) : result ndarray :=
  match for_rows (csv_reader text) [] with
  | Ok data => np_array data
  | Raise e => Raise e
  end.

(** Lines 6-19. *)
Definition load_datasets : M (ndarray * ndarray) :=
  data_initial <- csv_loader "initial.csv" ;;
  print data_initial ;;
  data_wsp <- csv_loader "wsp.csv" ;;
  ret (data_initial, data_wsp).

(** Lines 22-26.  Python evaluates the arguments of a call from left to
    right before the call. *)
Definition render (data_initial data_wsp : ndarray) : M unit :=
  subplots ;;
  x <- lift (column data_initial 0) ;;
  y <- lift (column data_initial 1) ;;
  scatter x y "Initial" None ;;
  x <- lift (column data_wsp 0) ;;
  y <- lift (column data_wsp 1) ;;
  scatter x y "WSP" (Some "+") ;;
  legend ;;
  show.

Definition plot_py : M unit :=
  d <- load_datasets ;;
  render (fst d) (snd d).

(** A run of the script in an environment, from an empty history. *)
Definition launch (e : environ) : world := World e [].
Definition run (e : environ) : result unit * world := plot_py (launch e).
Definition outcome (e : environ) : result unit := fst (run e).
Definition trace (e : environ) : list event := events (snd (run e)).

End Script.

(** ** Observations on a run *)

Section Observations.

Context {R : Runtime}.

(** The files opened, in order. *)
Fixpoint opened (tr : list event) : list string :=
  match tr with
  | [] => []
  | EvOpen path _ :: tr' => path :: opened tr'
  | _ :: tr' => opened tr'
  end.

(** The arrays printed on standard output, in order. *)
Fixpoint printed (tr : list event) : list ndarray :=
  match tr with
  | [] => []
  | EvPrint a :: tr' => a :: printed tr'
  | _ :: tr' => printed tr'
  end.

Definition is_scatter (ev : event) : bool :=
  match ev with EvScatter _ _ _ _ => true | _ => false end.

(** The scatter calls, in order. *)
Definition scatters (tr : list event) : list event := filter is_scatter tr.

(** The labels of the scatter calls, in order. *)
Fixpoint scatter_labels (tr : list event) : list string :=
  match tr with
  | [] => []
  | EvScatter _ _ label _ :: tr' => label :: scatter_labels tr'
  | _ :: tr' => scatter_labels tr'
  end.

(** Calls to the charting library. *)
Definition is_plot (ev : event) : bool :=
  match ev with
  | EvSubplots | EvScatter _ _ _ _ | EvLegend | EvShow | EvSavefig _ => true
  | _ => false
  end.

(** Calls that create or change a file. *)
Definition writes_file (ev : event) : bool :=
  match ev with
  | EvOpen _ WriteText | EvSavefig _ => true
  | _ => false
  end.

(** Where a call sends something the user can observe. *)
Inductive sink : Type := NoOutput | Stdout | Window | FileSystem.

Definition output_of (ev : event) : sink :=
  match ev with
  | EvOpen _ ReadText | EvClose _ => NoOutput
  | EvOpen _ WriteText | EvSavefig _ => FileSystem
  | EvPrint _ => Stdout
  | EvSubplots | EvScatter _ _ _ _ | EvLegend | EvShow => Window
  end.

Definition is_prefix {A : Type} (l l' : list A) : Prop :=
  exists rest, l' = l ++ rest.

(** ** Shapes of input *)

Definition parses (s : string) : bool :=
  match float s with Some _ => true | None => false end.

(** Every row has two fields and every field converts. *)
Definition well_formed (text : string) : bool :=
  forallb (fun row => Nat.eqb (length row) 2 && forallb parses row)
          (csv_reader text).

(** Some row has a field that does not convert. *)
Definition malformed (text : string) : bool :=
  existsb (fun row => existsb (fun s => negb (parses s)) row)
          (csv_reader text).

(** Some row has a column count other than two. *)
Definition not_all_two (text : string) : bool :=
  existsb (fun row => negb (Nat.eqb (length row) 2)) (csv_reader text).

(** The rows do not all have the same column count, or all have fewer than
    two columns. *)
Definition mismatched (text : string) : bool :=
  match csv_reader text with
  | [] => false
  | r :: rs => negb (same_length r rs) || Nat.ltb (length r) 2
  end.

(** The array holds the table of the text: N rows, two columns, entry
    (i, j) the float of field j of row i. *)
Definition holds_table (text : string) (a : ndarray) : Prop :=
  shape a = [length (csv_reader text); 2] /\
  forall i j row field,
    nth_error (csv_reader text) i = Some row ->
    nth_error row j = Some field ->
    entry a i j = float field /\ float field <> None.

End Observations.

(** ** Further observations *)

Section Coverage.

Context {R : Runtime}.

(** What the script can plot: at least one row, the same number of columns
    in every row, at least two of them, and every field converting. *)
Definition plottable (text : string) : bool :=
  match csv_reader text with
  | [] => false
  | r :: rs =>
      same_length r rs && Nat.leb 2 (length r) &&
      forallb (forallb parses) (r :: rs)
  end.

(** Every row has [k] fields. *)
Definition uniform (k : nat) (text : string) : bool :=
  forallb (fun row : list string => Nat.eqb (length row) k) (csv_reader text).

(** Every field of every row converts. *)
Definition converts (text : string) : bool :=
  forallb (forallb parses) (csv_reader text).

(** The floats of field [j] of every row, in row order. *)
Fixpoint field_floats (j : nat) (reader : list (list string))
    : option (list pyfloat) :=
  match reader with
  | [] => Some []
  | row :: reader' =>
      match nth_error row j with
      | None => None
      | Some s =>
          match float s, field_floats j reader' with
          | Some x, Some c => Some (x :: c)
          | _, _ => None
          end
      end
  end.

(** The array holds the table of the text, with [k] columns. *)
Definition holds_grid (k : nat) (text : string) (a : ndarray) : Prop :=
  shape a = [length (csv_reader text); k] /\
  forall i j row field,
    nth_error (csv_reader text) i = Some row ->
    nth_error row j = Some field ->
    exists x, float field = Some x /\ entry a i j = Some x.

(** The files a history leaves open, most recent first: an open of a file
    of the directory [dir] holds it until its close. *)
Fixpoint still_open (dir : string -> option string) (tr : list event)
    (held : list string) : list string :=
  match tr with
  | [] => held
  | EvOpen path _ :: tr' =>
      still_open dir tr'
        (match dir path with Some _ => path :: held | None => held end)
  | EvClose path :: tr' =>
      still_open dir tr'
        (filter (fun held_path => negb (String.eqb held_path path)) held)
  | _ :: tr' => still_open dir tr' held
  end.

Definition no_plot_call (tr : list event) : bool :=
  forallb (fun ev => negb (is_plot ev)) tr.

End Coverage.

(** The same imported code with the NumPy behaviour on ragged rows set. *)
Definition with_numpy (R : Runtime) (raises : bool) : Runtime := {|
  pyfloat := @pyfloat R;
  float := @float R;
  csv_reader := @csv_reader R;
  ragged_raises := raises
|}.

(** ** A runtime to run the script on concrete files

    Integer literals for [float] and comma/line splitting for
    [csv.reader], which is what the imported code does on such texts. *)

Module Sample.

Definition LF : string := String (Ascii.ascii_of_nat 10) EmptyString.

(** [s.split(sep)] for a one-character separator. *)
Fixpoint split_on (sep : Ascii.ascii) (s : string) : list string :=
  match s with
  | EmptyString => [EmptyString]
  | String c s' =>
      if Ascii.eqb c sep then EmptyString :: split_on sep s'
      else
        match split_on sep s' with
        | [] => [String c EmptyString]
        | f :: fs => String c f :: fs
        end
  end.

Definition lines (text : string) : list string :=
  match rev (split_on (Ascii.ascii_of_nat 10) text) with
  | EmptyString :: r => rev r
  | _ => split_on (Ascii.ascii_of_nat 10) text
  end.

Definition fields (line : string) : list string :=
  match line with
  | EmptyString => []
  | _ => split_on (Ascii.ascii_of_nat 44) line
  end.

Definition int_literal (s : string) : option Z :=
  option_map Z.of_int (NilZero.int_of_string s).

Definition runtime (ragged : bool) : Runtime := {|
  pyfloat := Z;
  float := int_literal;
  csv_reader := fun text => map fields (lines text);
  ragged_raises := ragged
|}.

(** NumPy 1.24 and later, and the releases before. *)
Definition modern : Runtime := runtime true.
Definition legacy : Runtime := runtime false.

Definition dir (initial wsp : option string) : string -> option string :=
  fun path =>
    if String.eqb path "initial.csv" then initial
    else if String.eqb path "wsp.csv" then wsp
    else None.

Definition environment (initial wsp : option string) : environ :=
  Environ [] "" (dir initial wsp).

Definition two_columns : string := "1,2" ++ LF ++ "3,4" ++ LF.
Definition three_columns : string := "1,2,3" ++ LF ++ "4,5,6" ++ LF.
Definition one_column : string := "1" ++ LF ++ "2" ++ LF.
Definition ragged_rows : string := "1,2" ++ LF ++ "3" ++ LF.
Definition bad_field : string := "1,2" ++ LF ++ "3,x" ++ LF.

End Sample.

(** * Properties *)

Section Properties.

Context {R : Runtime}.

(** ** Lists *)

Lemma Forall2_nth_error_left {A B : Type} (P : A -> B -> Prop) l l' :
  Forall2 P l l' ->
  forall i a, nth_error l i = Some a ->
  exists b, nth_error l' i = Some b /\ P a b.
Proof.
  induction 1 as [|a0 b0 l l' Hab _ IH]; intros [|i] a Hi; simpl in *;
    try discriminate.
  - injection Hi as <-. now exists b0.
  - now apply IH.
Qed.

Lemma Forall2_same_length {A B : Type} (P : A -> B -> Prop) l l' :
  Forall2 P l l' -> length l = length l'.
Proof. induction 1; simpl; congruence. Qed.

(** ** The conversion loop *)

Lemma float_row_inv row xs :
  float_row row = Ok xs -> Forall2 (fun s x => float s = Some x) row xs.
Proof.
  revert xs. induction row as [|s row IH]; simpl; intros xs H.
  - injection H as <-. constructor.
  - destruct (float s) as [x|] eqn:Hs; try discriminate.
    destruct (float_row row) as [ys|] eqn:Hr; try discriminate.
    injection H as <-. constructor; auto.
Qed.

Lemma float_row_raises row e : float_row row = Raise e -> e = ValueError.
Proof.
  induction row as [|s row IH]; simpl; try discriminate.
  destruct (float s); [|congruence].
  destruct (float_row row); [discriminate|].
  intros H. injection H as <-. now apply IH.
Qed.

Lemma float_row_total row :
  forallb parses row = true -> exists xs, float_row row = Ok xs.
Proof.
  induction row as [|s row IH]; simpl; intros H.
  - now exists [].
  - apply andb_prop in H as [Hs Hrow]. unfold parses in Hs.
    destruct (float s) as [x|]; try discriminate.
    destruct (IH Hrow) as [xs ->]. now exists (x :: xs).
Qed.

Lemma float_row_malformed row :
  existsb (fun s => negb (parses s)) row = true ->
  float_row row = Raise ValueError.
Proof.
  induction row as [|s row IH]; simpl; try discriminate.
  unfold parses at 1. destruct (float s); simpl; auto.
  intros H. rewrite (IH H). reflexivity.
Qed.

Lemma for_rows_acc reader : forall data,
  for_rows reader data =
  match for_rows reader [] with
  | Ok d => Ok (data ++ d)
  | Raise e => Raise e
  end.
Proof.
  induction reader as [|row reader IH]; simpl; intros data.
  - now rewrite app_nil_r.
  - destruct (float_row row) as [r|e]; auto.
    rewrite (IH (data ++ [r])), (IH [r]).
    destruct (for_rows reader []); auto.
    now rewrite <- app_assoc.
Qed.

Lemma for_rows_inv reader : forall data,
  for_rows reader [] = Ok data ->
  Forall2 (fun row r => float_row row = Ok r) reader data.
Proof.
  induction reader as [|row reader IH]; simpl; intros data H.
  - injection H as <-. constructor.
  - destruct (float_row row) as [r|] eqn:Hr; try discriminate.
    rewrite for_rows_acc in H.
    destruct (for_rows reader []) as [d|] eqn:Hd; try discriminate.
    injection H as <-. simpl. constructor; auto.
Qed.

Lemma for_rows_raises reader e :
  for_rows reader [] = Raise e -> e = ValueError.
Proof.
  induction reader as [|row reader IH]; simpl; try discriminate.
  destruct (float_row row) as [r|e'] eqn:Hr.
  - rewrite for_rows_acc. destruct (for_rows reader []); try discriminate.
    intros H. injection H as <-. now apply IH.
  - intros H. injection H as <-. now apply float_row_raises in Hr.
Qed.

Lemma for_rows_total reader :
  forallb (forallb parses) reader = true ->
  exists data, for_rows reader [] = Ok data.
Proof.
  induction reader as [|row reader IH]; simpl; intros H.
  - now exists [].
  - apply andb_prop in H as [Hrow Hrest].
    destruct (float_row_total _ Hrow) as [r ->].
    destruct (IH Hrest) as [d Hd].
    rewrite for_rows_acc, Hd. now exists ([r] ++ d).
Qed.

Lemma for_rows_malformed reader :
  existsb (fun row => existsb (fun s => negb (parses s)) row) reader = true ->
  for_rows reader [] = Raise ValueError.
Proof.
  induction reader as [|row reader IH]; simpl; try discriminate.
  intros H. destruct (float_row row) as [r|e] eqn:Hr.
  - apply orb_prop in H as [H|H].
    + rewrite (float_row_malformed _ H) in Hr. discriminate.
    + rewrite for_rows_acc, (IH H). reflexivity.
  - now rewrite (float_row_raises _ _ Hr).
Qed.

(** ** Arrays *)

Lemma rows_keep_lengths reader data :
  Forall2 (fun row r => float_row row = Ok r) reader data ->
  Forall2 (fun (row : list string) (r : list pyfloat) => length row = length r)
          reader data.
Proof.
  induction 1 as [|row r reader data Hr _ IH]; constructor; auto.
  apply float_row_inv in Hr. now apply Forall2_same_length in Hr.
Qed.

Lemma same_length_transfer (row : list string) (r : list pyfloat) reader data :
  length row = length r ->
  Forall2 (fun (row : list string) (r : list pyfloat) => length row = length r)
          reader data ->
  same_length r data = same_length row reader.
Proof.
  intros Hlen H. unfold same_length.
  induction H as [|row' r' reader data Hr _ IH]; simpl; auto.
  now rewrite IH, Hr, Hlen.
Qed.

Lemma pick_length j rows c : pick j rows = Some c -> length c = length rows.
Proof.
  revert c. induction rows as [|r rows IH]; simpl; intros c H.
  - injection H as <-. reflexivity.
  - destruct (nth_error r j); [|discriminate].
    destruct (pick j rows) as [c'|]; [|discriminate].
    injection H as <-. simpl. now rewrite (IH c').
Qed.

(** Two columns of one array have the same size, so the size check of
    [scatter] passes in this script. *)
Lemma columns_same_size a j k x y :
  column a j = Ok x -> column a k = Ok y ->
  Nat.eqb (length x) (length y) = true.
Proof.
  destruct a as [items|n rows]; simpl; [discriminate|].
  destruct (Nat.ltb j n); [|discriminate].
  destruct (pick j rows) as [cx|] eqn:Hx; [|discriminate].
  destruct (Nat.ltb k n); [|discriminate].
  destruct (pick k rows) as [cy|] eqn:Hy; [|discriminate].
  intros E1 E2. injection E1 as <-. injection E2 as <-.
  apply Nat.eqb_eq.
  now rewrite (pick_length _ _ _ Hx), (pick_length _ _ _ Hy).
Qed.

(** ** The loader and the script as decision trees *)

Lemma csv_loader_eq path w :
  csv_loader path w =
  match files (env w) path with
  | None => (Raise FileNotFoundError, log (EvOpen path ReadText) w)
  | Some text =>
      (array_of text, log (EvClose path) (log (EvOpen path ReadText) w))
  end.
Proof.
  unfold csv_loader, with_open, bind, open, finally, lift, emit, array_of.
  destruct (files (env w) path) as [text|]; simpl; auto.
  destruct (for_rows (csv_reader text) []); reflexivity.
Qed.

Lemma load_datasets_eq e :
  load_datasets (launch e) =
  match files e "initial.csv" with
  | None => (Raise FileNotFoundError, World e [EvOpen "initial.csv" ReadText])
  | Some t1 =>
      match array_of t1 with
      | Raise x =>
          (Raise x,
           World e [EvOpen "initial.csv" ReadText; EvClose "initial.csv"])
      | Ok a1 =>
          match files e "wsp.csv" with
          | None =>
              (Raise FileNotFoundError,
               World e [EvOpen "initial.csv" ReadText; EvClose "initial.csv";
                        EvPrint a1; EvOpen "wsp.csv" ReadText])
          | Some t2 =>
              match array_of t2 with
              | Raise x =>
                  (Raise x,
                   World e [EvOpen "initial.csv" ReadText;
                            EvClose "initial.csv"; EvPrint a1;
                            EvOpen "wsp.csv" ReadText; EvClose "wsp.csv"])
              | Ok a2 =>
                  (Ok (a1, a2),
                   World e [EvOpen "initial.csv" ReadText;
                            EvClose "initial.csv"; EvPrint a1;
                            EvOpen "wsp.csv" ReadText; EvClose "wsp.csv"])
              end
          end
      end
  end.
Proof.
  unfold load_datasets, bind. rewrite csv_loader_eq. simpl.
  destruct (files e "initial.csv") as [t1|]; auto.
  destruct (array_of t1) as [a1|x]; auto.
  unfold print, emit. rewrite csv_loader_eq. simpl.
  destruct (files e "wsp.csv") as [t2|]; reflexivity.
Qed.

Lemma render_eq a1 a2 e tr :
  render a1 a2 (World e tr) =
  match column a1 0, column a1 1 with
  | Raise x, _ | Ok _, Raise x => (Raise x, World e (tr ++ [EvSubplots]))
  | Ok x1, Ok y1 =>
      match column a2 0, column a2 1 with
      | Raise x, _ | Ok _, Raise x =>
          (Raise x,
           World e (tr ++ [EvSubplots; EvScatter x1 y1 "Initial" None]))
      | Ok x2, Ok y2 =>
          (Ok tt,
           World e (tr ++ [EvSubplots; EvScatter x1 y1 "Initial" None;
                           EvScatter x2 y2 "WSP" (Some "+");
                           EvLegend; EvShow]))
      end
  end.
Proof.
  unfold render, bind, subplots, scatter, legend, show, emit, lift, log.
  simpl.
  destruct (column a1 0) as [x1|] eqn:X1; [|reflexivity].
  destruct (column a1 1) as [y1|] eqn:Y1; [|reflexivity].
  rewrite (columns_same_size _ _ _ _ _ X1 Y1). simpl.
  destruct (column a2 0) as [x2|] eqn:X2;
    [|now rewrite <- !app_assoc].
  destruct (column a2 1) as [y2|] eqn:Y2; [|now rewrite <- !app_assoc].
  rewrite (columns_same_size _ _ _ _ _ X2 Y2). simpl.
  now rewrite <- !app_assoc.
Qed.

Lemma run_eq e :
  run e =
  match load_datasets (launch e) with
  | (Ok d, w) => render (fst d) (snd d) w
  | (Raise x, w) => (Raise x, w)
  end.
Proof. reflexivity. Qed.

(** Case analysis on a whole run of the script in [e]: the two files, the
    two arrays and the four column indexings. *)
Ltac run_tree e :=
  unfold outcome, trace; rewrite (run_eq e), (load_datasets_eq e);
  destruct (files e "initial.csv") as [t1|] eqn:F1;
  [ destruct (array_of t1) as [a1|x] eqn:A1;
    [ destruct (files e "wsp.csv") as [t2|] eqn:F2;
      [ destruct (array_of t2) as [a2|x] eqn:A2;
        [ rewrite render_eq; cbn [fst snd];
          destruct (column a1 0) as [x1|x] eqn:X1;
          [ destruct (column a1 1) as [y1|x] eqn:Y1;
            [ destruct (column a2 0) as [x2|x] eqn:X2;
              [ destruct (column a2 1) as [y2|x] eqn:Y2 | ] | ] | ] | ] | ] | ]
  | ];
  cbn [fst snd events env app].

(** ** What the loader builds *)

Lemma array_of_malformed text :
  malformed text = true -> array_of text = Raise ValueError.
Proof.
  unfold malformed, array_of. intros H.
  now rewrite (for_rows_malformed _ H).
Qed.

Lemma array_of_empty text :
  csv_reader text = [] -> array_of text = Ok (Array1 []).
Proof. unfold array_of. now intros ->. Qed.

Lemma well_formed_split text :
  well_formed text = true ->
  forallb (forallb parses) (csv_reader text) = true /\
  Forall (fun row : list string => length row = 2) (csv_reader text).
Proof.
  unfold well_formed. generalize (csv_reader text) as reader.
  induction reader as [|row reader IH]; simpl; intros H.
  - split; auto.
  - apply andb_prop in H as [Hrow Hrest].
    apply andb_prop in Hrow as [Hlen Hp].
    apply Nat.eqb_eq in Hlen. destruct (IH Hrest) as [H1 H2].
    split; [now rewrite Hp, H1 | now constructor].
Qed.

Lemma array_of_well_formed text :
  well_formed text = true -> csv_reader text <> [] ->
  exists a, array_of text = Ok a /\ holds_table text a.
Proof.
  intros Hwf Hne. destruct (well_formed_split _ Hwf) as [Hp Hlen].
  destruct (for_rows_total _ Hp) as [data Hdata].
  pose proof (for_rows_inv _ _ Hdata) as Hrows.
  pose proof (rows_keep_lengths _ _ Hrows) as Hkeep.
  unfold array_of, holds_table. rewrite Hdata.
  destruct Hkeep as [|row r reader data Hr Hkeep]; [congruence|].
  unfold np_array.
  rewrite (same_length_transfer row r reader data Hr Hkeep).
  inversion Hlen as [|? ? Hrow Hreader]; subst.
  assert (Hsame : same_length row reader = true).
  { unfold same_length. apply forallb_forall. intros r' Hr'.
    rewrite Forall_forall in Hreader. rewrite (Hreader _ Hr'), Hrow.
    reflexivity. }
  rewrite Hsame, <- Hr, Hrow.
  exists (Array2 2 (r :: data)). split; [reflexivity|]. split.
  - simpl. f_equal. f_equal. symmetry.
    eapply Forall2_same_length; eauto.
  - intros i j row' field Hi Hj.
    destruct (Forall2_nth_error_left _ _ _ Hrows _ _ Hi) as [r' [Hi' Hr']].
    apply float_row_inv in Hr'.
    destruct (Forall2_nth_error_left _ _ _ Hr' _ _ Hj) as [v [Hj' Hv]].
    assert (Hj2 : j < 2).
    { rewrite Forall_forall in Hlen.
      rewrite <- (Hlen row' (nth_error_In _ _ Hi)).
      apply nth_error_Some. congruence. }
    unfold entry. apply Nat.ltb_lt in Hj2. rewrite Hj2, Hi', Hj', Hv.
    split; [reflexivity | discriminate].
Qed.

(** C1 (as amended).  For every pair of well-formed two-column CSV input
    files with at least one row each, the loader produces for each file an
    array of shape N x 2, N the number of rows of the file, whose entry
    (i, j) is the float conversion of field j of row i of that file: row
    order and column order are preserved. *)
Theorem loader_builds_N_by_2 e t1 t2 :
  files e "initial.csv" = Some t1 ->
  files e "wsp.csv" = Some t2 ->
  well_formed t1 = true -> well_formed t2 = true ->
  csv_reader t1 <> [] -> csv_reader t2 <> [] ->
  exists a1 a2,
    fst (load_datasets (launch e)) = Ok (a1, a2) /\
    holds_table t1 a1 /\ holds_table t2 a2.
Proof.
  intros F1 F2 W1 W2 N1 N2.
  destruct (array_of_well_formed _ W1 N1) as [a1 [A1 T1]].
  destruct (array_of_well_formed _ W2 N2) as [a2 [A2 T2]].
  exists a1, a2. rewrite load_datasets_eq, F1, A1, F2, A2. auto.
Qed.

(** ** Shape mismatches *)

Lemma column_raises a j x : column a j = Raise x -> x = IndexError.
Proof.
  destruct a as [items|k rows]; simpl; [congruence|].
  destruct (Nat.ltb j k); [|congruence].
  destruct (pick j rows); congruence.
Qed.

Lemma array_of_mismatched text a :
  mismatched text = true -> array_of text = Ok a ->
  column a 0 = Raise IndexError \/ column a 1 = Raise IndexError.
Proof.
  unfold mismatched, array_of. intros Hm.
  destruct (for_rows (csv_reader text) []) as [data|] eqn:Hdata;
    [|discriminate].
  pose proof (rows_keep_lengths _ _ (for_rows_inv _ _ Hdata)) as Hkeep.
  destruct Hkeep as [|row r reader data Hr Hkeep]; [discriminate|].
  unfold np_array.
  rewrite (same_length_transfer row r reader data Hr Hkeep).
  destruct (same_length row reader); simpl in Hm.
  - intros E. injection E as <-. right. simpl.
    rewrite <- Hr. apply Nat.ltb_lt in Hm.
    destruct (Nat.ltb_spec 1 (length row)); [lia | reflexivity].
  - destruct ragged_raises; [discriminate|].
    intros E. injection E as <-. now left.
Qed.

(** A mismatched dataset cannot have both its columns taken. *)
Ltac unplottable Hm :=
  match goal with
  | A : array_of ?t = Ok ?a, X : column ?a 0 = Ok _, Y : column ?a 1 = Ok _
    |- _ => destruct (array_of_mismatched t a Hm A); congruence
  end.

(** C2 (as amended).  For every input in which the rows of a file do not
    all have the same column count, or all have fewer than two columns,
    the script terminates with an uncaught failure before the display
    call, and no scatter call is made on that file's dataset: none at all
    when the file is "initial.csv", none labelled "WSP" when it is
    "wsp.csv". *)
Theorem mismatch_stops_the_script e path text :
  path = "initial.csv" \/ path = "wsp.csv" ->
  files e path = Some text ->
  mismatched text = true ->
  failed (outcome e) = true /\
  ~ In EvShow (trace e) /\
  (path = "initial.csv" -> scatter_labels (trace e) = []) /\
  (path = "wsp.csv" -> ~ In "WSP" (scatter_labels (trace e))).
Proof.
  intros [-> | ->] F Hm; run_tree e;
    try discriminate F; try (injection F as ->);
    try (unplottable Hm);
    repeat split; try (intros; discriminate);
    simpl; intuition congruence.
Qed.

(** ** The plot calls *)

(** C3.  For every run that completes normally, the scatter call is made
    exactly twice, once per dataset: first with column 0 and column 1 of
    the initial dataset, label "Initial" and the default marker, then with
    column 0 and column 1 of the wsp dataset, label "WSP" and marker "+". *)
Theorem scatter_called_once_per_dataset e :
  outcome e = Ok tt ->
  exists a1 a2 x1 y1 x2 y2,
    fst (load_datasets (launch e)) = Ok (a1, a2) /\
    column a1 0 = Ok x1 /\ column a1 1 = Ok y1 /\
    column a2 0 = Ok x2 /\ column a2 1 = Ok y2 /\
    scatters (trace e) =
      [EvScatter x1 y1 "Initial" None; EvScatter x2 y2 "WSP" (Some "+")].
Proof.
  run_tree e; intros H; try discriminate.
  exists a1, a2, x1, y1, x2, y2. repeat split; assumption || reflexivity.
Qed.

(** ** Failures of the loader *)

(** C4.  For every input file containing a malformed row (some field does
    not convert to a float), the parse step of the loader raises
    [ValueError] with nothing done but opening and closing the file, and
    the script terminates with a failure.  Nothing catches the error: when
    the file is "initial.csv", and when it is "wsp.csv" and the first
    dataset was loaded, the [ValueError] is the outcome of the run and the
    closing of that file is the last thing the run does. *)
Theorem malformed_row_stops_the_script e path text :
  path = "initial.csv" \/ path = "wsp.csv" ->
  files e path = Some text ->
  malformed text = true ->
  (forall w, files (env w) path = Some text ->
     csv_loader path w =
     (Raise ValueError, log (EvClose path) (log (EvOpen path ReadText) w))) /\
  failed (outcome e) = true /\
  (path = "initial.csv" ->
     outcome e = Raise ValueError /\
     trace e = [EvOpen "initial.csv" ReadText; EvClose "initial.csv"]) /\
  (path = "wsp.csv" ->
     forall a, fst (csv_loader "initial.csv" (launch e)) = Ok a ->
     outcome e = Raise ValueError /\
     trace e = [EvOpen "initial.csv" ReadText; EvClose "initial.csv";
                EvPrint a;
                EvOpen "wsp.csv" ReadText; EvClose "wsp.csv"]).
Proof.
  intros Hpath F Hm. pose proof (array_of_malformed _ Hm) as Hraise.
  split.
  { intros w Hw. now rewrite csv_loader_eq, Hw, Hraise. }
  rewrite (csv_loader_eq "initial.csv" (launch e)). cbn [launch env].
  destruct Hpath as [-> | ->]; run_tree e;
    try discriminate F; try (injection F as ->); try congruence;
    repeat split; try (intros; discriminate); congruence.
Qed.

(** C5.  If "initial.csv" or "wsp.csv" is missing from the working
    directory, the open of that file raises [FileNotFoundError] and the
    script terminates with a failure.  Nothing handles the error: when the
    file is "initial.csv", and when it is "wsp.csv" and the first dataset
    was loaded, the [FileNotFoundError] is the outcome of the run and the
    open of that file is the last thing the run does. *)
Theorem missing_file_stops_the_script e path :
  path = "initial.csv" \/ path = "wsp.csv" ->
  files e path = None ->
  (forall w, files (env w) path = None ->
     open path w = (Raise FileNotFoundError, log (EvOpen path ReadText) w)) /\
  failed (outcome e) = true /\
  (path = "initial.csv" ->
     outcome e = Raise FileNotFoundError /\
     trace e = [EvOpen "initial.csv" ReadText]) /\
  (path = "wsp.csv" ->
     forall a, fst (csv_loader "initial.csv" (launch e)) = Ok a ->
     outcome e = Raise FileNotFoundError /\
     trace e = [EvOpen "initial.csv" ReadText; EvClose "initial.csv";
                EvPrint a; EvOpen "wsp.csv" ReadText]).
Proof.
  intros Hpath F. split.
  { intros w Hw. unfold open. now rewrite Hw. }
  rewrite (csv_loader_eq "initial.csv" (launch e)). cbn [launch env].
  destruct Hpath as [-> | ->]; run_tree e;
    try discriminate F;
    repeat split; try (intros; discriminate); congruence.
Qed.

(** ** Inputs, order and outputs *)

Lemma run_depends_on_two_files e e' :
  files e' "initial.csv" = files e "initial.csv" ->
  files e' "wsp.csv" = files e "wsp.csv" ->
  outcome e' = outcome e /\ trace e' = trace e.
Proof.
  intros H1 H2. unfold outcome, trace.
  rewrite (run_eq e), (run_eq e'), !load_datasets_eq, H1, H2.
  destruct (files e "initial.csv") as [t1|]; [|auto].
  destruct (array_of t1) as [a1|]; [|auto].
  destruct (files e "wsp.csv") as [t2|]; [|auto].
  destruct (array_of t2) as [a2|]; [|auto].
  rewrite !render_eq. cbn [fst snd].
  destruct (column a1 0); [|auto]. destruct (column a1 1); [|auto].
  destruct (column a2 0); [|auto]. destruct (column a2 1); auto.
Qed.

(** C6 (as amended).  For every run, the script opens no file other than
    "initial.csv" and "wsp.csv" of the working directory: it opens
    "initial.csv" first and, exactly when the first dataset has been
    loaded, "wsp.csv" after it, each once.  It takes no command-line flags
    and consumes no other input: two environments that agree on those two
    files give the same run. *)
Theorem reads_only_the_two_files e :
  (opened (trace e) = ["initial.csv"] \/
   opened (trace e) = ["initial.csv"; "wsp.csv"]) /\
  (opened (trace e) = ["initial.csv"; "wsp.csv"] <->
   exists a, fst (csv_loader "initial.csv" (launch e)) = Ok a) /\
  (forall e',
     files e' "initial.csv" = files e "initial.csv" ->
     files e' "wsp.csv" = files e "wsp.csv" ->
     outcome e' = outcome e /\ trace e' = trace e).
Proof.
  split; [|split; [|intros e'; apply run_depends_on_two_files]];
    rewrite ?(csv_loader_eq "initial.csv" (launch e)); cbn [launch env];
    run_tree e; simpl; auto;
    split; try discriminate; eauto; intros [a Ha]; discriminate.
Qed.

(** C7.  Every run executes its steps in one fixed order: it reads and
    parses the first file into an array (and prints it), then reads and
    parses the second file into an array, then plots both series, then
    displays.  The calls of a run are an initial part of that sequence,
    and the whole of it when the run completes.  In particular, wherever
    "wsp.csv" is opened the first array has been built before, and wherever
    a plotting call is made both arrays have been built before. *)
Theorem steps_run_in_order e :
  (exists a1 x1 y1 x2 y2,
     is_prefix (trace e)
       [EvOpen "initial.csv" ReadText; EvClose "initial.csv"; EvPrint a1;
        EvOpen "wsp.csv" ReadText; EvClose "wsp.csv";
        EvSubplots; EvScatter x1 y1 "Initial" None;
        EvScatter x2 y2 "WSP" (Some "+"); EvLegend; EvShow] /\
     (outcome e = Ok tt -> length (trace e) = 10)) /\
  (forall n m,
     nth_error (trace e) n = Some (EvOpen "wsp.csv" m) ->
     exists a1,
       fst (csv_loader "initial.csv" (launch e)) = Ok a1 /\
       firstn n (trace e) =
         [EvOpen "initial.csv" ReadText; EvClose "initial.csv"; EvPrint a1]) /\
  (forall n ev,
     nth_error (trace e) n = Some ev -> is_plot ev = true ->
     exists a1 a2,
       fst (load_datasets (launch e)) = Ok (a1, a2) /\
       5 <= n /\
       firstn 5 (trace e) =
         [EvOpen "initial.csv" ReadText; EvClose "initial.csv"; EvPrint a1;
          EvOpen "wsp.csv" ReadText; EvClose "wsp.csv"]).
Proof.
  split; [|split].
  - run_tree e; unfold is_prefix;
      first [exists a1 | exists (Array1 [])];
      first [exists x1, y1 | exists [], []];
      first [exists x2, y2 | exists [], []];
      (split; [eexists; simpl; reflexivity | try reflexivity; discriminate]).
  - rewrite (csv_loader_eq "initial.csv" (launch e)). cbn [launch env].
    run_tree e; intros n m Hn;
      do 11 (try destruct n as [|n]); simpl in Hn; try discriminate;
      eauto.
  - run_tree e; intros n ev Hn Hp;
      do 11 (try destruct n as [|n]); simpl in Hn; try discriminate;
      try (injection Hn as <-; discriminate);
      exists a1, a2; repeat split; auto; lia.
Qed.

(** C8 (as amended).  For every run, the program writes no output file and
    does not persist or export the rendered figure: the working directory,
    like the rest of the environment, is left as it was found, and every
    call of the run either outputs nothing (a read-only open, a close),
    or prints on standard output, or goes to the plot window.  Standard
    output receives at most one thing, the initial dataset once it is
    loaded. *)
Theorem writes_no_file e :
  env (snd (run e)) = e /\
  (forall ev, In ev (trace e) ->
     writes_file ev = false /\
     (output_of ev = NoOutput \/ output_of ev = Stdout \/
      output_of ev = Window)) /\
  (printed (trace e) = [] \/
   exists a, fst (csv_loader "initial.csv" (launch e)) = Ok a /\
             printed (trace e) = [a]).
Proof.
  rewrite (csv_loader_eq "initial.csv" (launch e)). cbn [launch env].
  run_tree e; (split; [reflexivity|]); (split; [|simpl; eauto]);
    intros ev Hev; simpl in Hev;
    repeat (destruct Hev as [<- | Hev]; [simpl; auto|]);
    contradiction.
Qed.

(** Before NumPy 1.24, [np.array] raises on no list of rows: a first file
    whose fields all convert is loaded. *)
Lemma converted_file_is_loaded e text :
  ragged_raises = false ->
  files e "initial.csv" = Some text ->
  malformed text = false ->
  exists a, fst (csv_loader "initial.csv" (launch e)) = Ok a.
Proof.
  intros Hnp F Hm. rewrite csv_loader_eq. cbn [launch env]. rewrite F.
  cbn [fst]. unfold array_of, np_array.
  destruct (for_rows (csv_reader text) []) as [[|r rs]|x] eqn:H; eauto.
  - destruct (same_length r rs); eauto. rewrite Hnp. eauto.
  - exfalso. unfold malformed in Hm. revert H Hm.
    generalize (@nil (list pyfloat)).
    induction (csv_reader text) as [|row reader IH]; simpl; [discriminate|].
    intros acc H Hm. apply orb_false_elim in Hm as [Hrow Hrest].
    destruct (float_row row) as [r|x'] eqn:Hr; [now apply (IH _ H)|].
    clear - Hr Hrow. induction row as [|s row IHrow]; simpl in *;
      [discriminate|].
    apply orb_false_elim in Hrow as [Hs Hrow]. unfold parses in Hs.
    destruct (float s); [|discriminate].
    destruct (float_row row); [discriminate|]. now apply IHrow.
Qed.

(** C9 (as amended).  For every run that loads the first file into an
    array (the rows are parsed and [np.array] returns), the script prints
    the whole initial dataset array on standard output before it opens the
    second file, and prints nothing else: the wsp dataset array is never
    printed. *)
Theorem prints_initial_before_second_read e a :
  fst (csv_loader "initial.csv" (launch e)) = Ok a ->
  printed (trace e) = [a] /\
  exists rest,
    trace e =
      [EvOpen "initial.csv" ReadText; EvClose "initial.csv"; EvPrint a;
       EvOpen "wsp.csv" ReadText] ++ rest /\
    printed rest = [] /\ opened rest = [].
Proof.
  rewrite (csv_loader_eq "initial.csv" (launch e)). cbn [launch env].
  run_tree e; intros H; try discriminate; injection H as <-;
    (split; [reflexivity|]); eexists; simpl; repeat split.
Qed.

(** C10.  If either input file is empty (zero rows), loading it succeeds
    and yields the empty array, of shape (0,); indexing a column of that
    array raises [IndexError]; and the script terminates with a failure.
    When both datasets are loaded, the failure of the run is that
    [IndexError], raised after the files were parsed without error and
    before anything is displayed. *)
Theorem empty_file_fails_at_indexing e path text :
  path = "initial.csv" \/ path = "wsp.csv" ->
  files e path = Some text ->
  csv_reader text = [] ->
  (forall w, files (env w) path = Some text ->
     fst (csv_loader path w) = Ok (Array1 [])) /\
  shape (Array1 []) = [0] /\
  (forall j, column (Array1 []) j = Raise IndexError) /\
  failed (outcome e) = true /\
  (forall a1 a2,
     fst (load_datasets (launch e)) = Ok (a1, a2) ->
     outcome e = Raise IndexError /\ ~ In EvShow (trace e)).
Proof.
  intros Hpath F Hrows. pose proof (array_of_empty _ Hrows) as Hempty.
  split. { intros w Hw. now rewrite csv_loader_eq, Hw, Hempty. }
  split; [reflexivity|]. split; [reflexivity|].
  destruct Hpath as [-> | ->]; run_tree e;
    try discriminate F; try (injection F as ->);
    try (rewrite Hempty in *; discriminate);
    try (assert (a1 = Array1 []) as -> by congruence; discriminate);
    try (assert (a2 = Array1 []) as -> by congruence; discriminate);
    (split; [reflexivity|]); intros b1 b2 Hb; try discriminate Hb;
    match goal with
    | X : column _ _ = Raise ?x |- _ => rewrite (column_raises _ _ _ X)
    end;
    (split; [reflexivity | simpl; intuition congruence]).
Qed.

(** * Further properties of the script *)

(** ** Which inputs are plotted *)

Lemma Forall2_nth_error_right {A B : Type} (P : A -> B -> Prop) l l' :
  Forall2 P l l' ->
  forall i b, nth_error l' i = Some b ->
  exists a, nth_error l i = Some a /\ P a b.
Proof.
  induction 1 as [|a0 b0 l l' Hab _ IH]; intros [|i] b Hi; simpl in *;
    try discriminate.
  - injection Hi as <-. now exists a0.
  - now apply IH.
Qed.

Lemma pick_defined j rows :
  Forall (fun r => j < length r) rows -> exists c, pick j rows = Some c.
Proof.
  induction 1 as [|r rows Hr _ [c IH]]; simpl.
  - now exists [].
  - destruct (nth_error r j) as [x|] eqn:Hx.
    + rewrite IH. now exists (x :: c).
    + apply nth_error_None in Hx. lia.
Qed.

Lemma same_length_all {A : Type} (r : list A) rs :
  same_length r rs = true -> Forall (fun r' => length r' = length r) rs.
Proof.
  unfold same_length. rewrite forallb_forall, Forall_forall.
  intros H x Hx. apply Nat.eqb_eq. now apply H.
Qed.

Lemma float_row_converts row r :
  float_row row = Ok r -> forallb parses row = true.
Proof.
  revert r. induction row as [|s row IH]; simpl; intros r H; auto.
  unfold parses at 1. destruct (float s); [|discriminate].
  destruct (float_row row) as [xs|] eqn:Hrow; [|discriminate].
  simpl. now apply (IH xs).
Qed.

Lemma for_rows_converts reader data :
  for_rows reader [] = Ok data -> forallb (forallb parses) reader = true.
Proof.
  intros H. apply for_rows_inv in H.
  induction H as [|row r reader data Hr _ IH]; simpl; auto.
  now rewrite (float_row_converts _ _ Hr), IH.
Qed.

(** The loader returns a two-dimensional array exactly on converted rows of
    one common length. *)
Lemma array_of_two_dim text k data :
  array_of text = Ok (Array2 k data) ->
  exists row reader,
    csv_reader text = row :: reader /\
    same_length row reader = true /\ k = length row /\
    for_rows (csv_reader text) [] = Ok data.
Proof.
  unfold array_of.
  destruct (for_rows (csv_reader text) []) as [d|] eqn:Hd; [|discriminate].
  pose proof (rows_keep_lengths _ _ (for_rows_inv _ _ Hd)) as Hkeep.
  destruct Hkeep as [|row r reader d Hr Hkeep]; [discriminate|].
  unfold np_array.
  rewrite (same_length_transfer row r reader d Hr Hkeep).
  destruct (same_length row reader) eqn:Hs.
  - intros E. injection E as <- <-. exists row, reader. auto.
  - destruct ragged_raises; discriminate.
Qed.

Lemma array_of_uniform text row reader :
  csv_reader text = row :: reader ->
  same_length row reader = true ->
  converts text = true ->
  exists data,
    array_of text = Ok (Array2 (length row) data) /\
    for_rows (csv_reader text) [] = Ok data /\
    Forall (fun r : list pyfloat => length r = length row) data.
Proof.
  unfold converts, array_of. intros Hrows Hs Hc.
  destruct (for_rows_total _ Hc) as [data Hdata]. rewrite Hdata.
  pose proof (rows_keep_lengths _ _ (for_rows_inv _ _ Hdata)) as Hkeep.
  rewrite Hrows in Hkeep.
  inversion Hkeep as [|? r ? d Hr Hkeep']; subst.
  exists (r :: d). unfold np_array.
  rewrite (same_length_transfer row r reader d Hr Hkeep'), Hs, <- Hr.
  repeat split.
  constructor; [congruence|].
  apply same_length_all in Hs.
  clear - Hs Hkeep'. induction Hkeep' as [|row' r' reader d Hr' _ IH];
    constructor; inversion Hs; subst; auto; congruence.
Qed.

Lemma array_of_plottable text :
  plottable text = true <->
  exists a x y,
    array_of text = Ok a /\ column a 0 = Ok x /\ column a 1 = Ok y.
Proof.
  unfold plottable. split.
  - destruct (csv_reader text) as [|row reader] eqn:Hrows; [discriminate|].
    intros H. apply andb_prop in H as [H Hc].
    apply andb_prop in H as [Hs Hk]. apply Nat.leb_le in Hk.
    destruct (array_of_uniform text row reader Hrows Hs)
      as (data & Ha & _ & Hl).
    { unfold converts. now rewrite Hrows. }
    assert (Hpick : forall j, j < 2 -> exists c, pick j data = Some c).
    { intros j Hj. apply pick_defined.
      eapply Forall_impl; [|exact Hl]. simpl. intros r Hr. lia. }
    destruct (Hpick 0) as [x Hx]; [lia|].
    destruct (Hpick 1) as [y Hy]; [lia|].
    exists (Array2 (length row) data), x, y.
    split; [exact Ha|]. simpl. rewrite Hx, Hy.
    destruct (Nat.ltb_spec 0 (length row)); [|lia].
    destruct (Nat.ltb_spec 1 (length row)); [|lia]. auto.
  - intros (a & x & y & Ha & Hx & Hy).
    destruct a as [items|k data]; [discriminate|].
    destruct (array_of_two_dim _ _ _ Ha)
      as (row & reader & Hrows & Hs & -> & Hd).
    assert (Hc : forallb (forallb parses) (row :: reader) = true).
    { rewrite <- Hrows. eapply for_rows_converts; eauto. }
    rewrite Hrows, Hs, Hc, andb_true_r.
    simpl in Hy. destruct (Nat.ltb_spec 1 (length row)); [|discriminate].
    apply Nat.leb_le. lia.
Qed.

Lemma completes_iff_columns e :
  outcome e = Ok tt <->
  exists t1 t2 a1 a2 x1 y1 x2 y2,
    files e "initial.csv" = Some t1 /\ files e "wsp.csv" = Some t2 /\
    array_of t1 = Ok a1 /\ array_of t2 = Ok a2 /\
    column a1 0 = Ok x1 /\ column a1 1 = Ok y1 /\
    column a2 0 = Ok x2 /\ column a2 1 = Ok y2.
Proof.
  run_tree e; split; try discriminate; try reflexivity;
    try (intros (u1 & u2 & b1 & b2 & p1 & q1 & p2 & q2 &
                 E1 & E2 & B1 & B2 & P1 & Q1 & P2 & Q2); congruence).
  intros _. exists t1, t2, a1, a2, x1, y1, x2, y2. repeat split; auto.
Qed.

(** X1.  The run completes normally exactly when both files are there and
    both are plottable: at least one row, every field converting, the same
    number of columns in every row, and at least two columns.  Every other
    input ends in an uncaught exception. *)
Theorem completes_iff_plottable e :
  outcome e = Ok tt <->
  exists t1 t2,
    files e "initial.csv" = Some t1 /\ files e "wsp.csv" = Some t2 /\
    plottable t1 = true /\ plottable t2 = true.
Proof.
  rewrite completes_iff_columns. split.
  - intros (t1 & t2 & a1 & a2 & x1 & y1 & x2 & y2 &
            F1 & F2 & A1 & A2 & X1 & Y1 & X2 & Y2).
    exists t1, t2. repeat split; auto; apply array_of_plottable;
      [exists a1, x1, y1 | exists a2, x2, y2]; auto.
  - intros (t1 & t2 & F1 & F2 & P1 & P2).
    apply array_of_plottable in P1 as (a1 & x1 & y1 & A1 & X1 & Y1).
    apply array_of_plottable in P2 as (a2 & x2 & y2 & A2 & X2 & Y2).
    exists t1, t2, a1, a2, x1, y1, x2, y2. repeat split; auto.
Qed.

(** X2.  The display is reached exactly in the runs that complete: [show],
    like [legend], is called in a run if and only if the run ends normally,
    and then the two are the last calls of the run, made once each.  A run
    that fails never displays anything. *)
Theorem displays_iff_completes e :
  (In EvShow (trace e) <-> outcome e = Ok tt) /\
  (In EvLegend (trace e) <-> outcome e = Ok tt) /\
  (outcome e = Ok tt ->
   exists before,
     trace e = before ++ [EvLegend; EvShow] /\
     ~ In EvShow before /\ ~ In EvLegend before).
Proof.
  run_tree e; repeat split; try discriminate;
    try (simpl; intuition discriminate).
  intros _.
  exists [EvOpen "initial.csv" ReadText; EvClose "initial.csv"; EvPrint a1;
          EvOpen "wsp.csv" ReadText; EvClose "wsp.csv"; EvSubplots;
          EvScatter x1 y1 "Initial" None; EvScatter x2 y2 "WSP" (Some "+")].
  repeat split; simpl; intuition discriminate.
Qed.

(** ** What is scattered *)

Lemma pick_field_floats j reader data c :
  Forall2 (fun row r => float_row row = Ok r) reader data ->
  pick j data = Some c ->
  field_floats j reader = Some c.
Proof.
  intros H. revert c.
  induction H as [|row r reader data Hr _ IH]; simpl; intros c Hc.
  - exact Hc.
  - destruct (nth_error r j) as [x|] eqn:Hx; [|discriminate].
    destruct (pick j data) as [c'|]; [|discriminate].
    injection Hc as <-.
    destruct (Forall2_nth_error_right _ _ _ (float_row_inv _ _ Hr) _ _ Hx)
      as [s [Hs Hf]].
    now rewrite Hs, Hf, (IH c' eq_refl).
Qed.

Lemma column_field_floats text a j c :
  array_of text = Ok a -> column a j = Ok c ->
  field_floats j (csv_reader text) = Some c.
Proof.
  intros Ha Hc. destruct a as [items|k data]; [discriminate|].
  destruct (array_of_two_dim _ _ _ Ha) as (row & reader & _ & _ & _ & Hd).
  simpl in Hc. destruct (Nat.ltb j k); [|discriminate].
  destruct (pick j data) as [c'|] eqn:Hp; [|discriminate].
  injection Hc as <-.
  exact (pick_field_floats _ _ _ _ (for_rows_inv _ _ Hd) Hp).
Qed.

Lemma field_floats_length j reader c :
  field_floats j reader = Some c -> length c = length reader.
Proof.
  revert c. induction reader as [|row reader IH]; simpl; intros c H.
  - now injection H as <-.
  - destruct (nth_error row j) as [s|]; [|discriminate].
    destruct (float s); [|discriminate].
    destruct (field_floats j reader) as [c'|]; [|discriminate].
    injection H as <-. simpl. now rewrite (IH c').
Qed.

(** X3.  In a run that completes, the points scattered for a file are
    read off its first two fields only: the x series is the float of field
    0 of every row and the y series the float of field 1 of every row, in
    row order, one point per row.  Columns after the second never reach the
    plot. *)
Theorem scattered_series_are_first_two_fields e text1 text2 :
  files e "initial.csv" = Some text1 ->
  files e "wsp.csv" = Some text2 ->
  outcome e = Ok tt ->
  exists x1 y1 x2 y2,
    field_floats 0 (csv_reader text1) = Some x1 /\
    field_floats 1 (csv_reader text1) = Some y1 /\
    field_floats 0 (csv_reader text2) = Some x2 /\
    field_floats 1 (csv_reader text2) = Some y2 /\
    length x1 = length (csv_reader text1) /\
    length x2 = length (csv_reader text2) /\
    scatters (trace e) =
      [EvScatter x1 y1 "Initial" None; EvScatter x2 y2 "WSP" (Some "+")].
Proof.
  intros G1 G2. run_tree e; intros H; try discriminate.
  injection G1 as <-. injection G2 as <-.
  exists x1, y1, x2, y2.
  repeat split;
    eauto using column_field_floats, field_floats_length.
Qed.

(** ** What the loader keeps *)

Lemma uniform_head k text row reader :
  csv_reader text = row :: reader -> uniform k text = true ->
  length row = k /\ same_length row reader = true.
Proof.
  unfold uniform, same_length. intros ->. simpl. intros H.
  apply andb_prop in H as [Hrow Hrest]. apply Nat.eqb_eq in Hrow.
  split; [exact Hrow|]. rewrite forallb_forall in *.
  intros r Hr. now rewrite Hrow, (Hrest r Hr).
Qed.

(** X4.  The loader is not tied to two columns: on a file with at least
    one row, whose rows all have k fields (k = 0 for blank lines included)
    and whose fields all convert, it returns an array of shape N x k whose
    entry (i, j) is the float of field j of row i.  No row and no column is
    dropped or reordered. *)
Theorem loader_keeps_every_field path w text k :
  files (env w) path = Some text ->
  csv_reader text <> [] ->
  uniform k text = true ->
  converts text = true ->
  exists a, fst (csv_loader path w) = Ok a /\ holds_grid k text a.
Proof.
  intros F Hne Hu Hc. rewrite csv_loader_eq, F. cbn [fst].
  destruct (csv_reader text) as [|row reader] eqn:Hrows; [congruence|].
  destruct (uniform_head _ _ _ _ Hrows Hu) as [Hk Hs].
  destruct (array_of_uniform _ _ _ Hrows Hs Hc) as (data & Ha & Hd & Hl).
  rewrite Hk in Ha. exists (Array2 k data). split; [exact Ha|].
  pose proof (for_rows_inv _ _ Hd) as Hrel. rewrite Hrows in Hrel.
  unfold holds_grid. rewrite Hrows. split.
  - simpl shape. now rewrite <- (Forall2_same_length _ _ _ Hrel).
  - intros i j row' field Hi Hj.
    destruct (Forall2_nth_error_left _ _ _ Hrel _ _ Hi) as [r [Hi' Hr]].
    apply float_row_inv in Hr.
    destruct (Forall2_nth_error_left _ _ _ Hr _ _ Hj) as [x [Hj' Hx]].
    exists x. split; [exact Hx|]. unfold entry. rewrite Hi', Hj'.
    assert (Hlt : j < k).
    { rewrite Forall_forall in Hl.
      rewrite <- Hk, <- (Hl r (nth_error_In _ _ Hi')).
      apply nth_error_Some. congruence. }
    apply Nat.ltb_lt in Hlt. now rewrite Hlt.
Qed.

(** X5.  The shape of every array the loader returns: (0,) on a file with
    no row; (N, k) when the N rows all have the k fields of the first one;
    (N,) on rows of unequal lengths, which only a NumPy before 1.24 lets
    through.  In each case the first dimension is the number of rows of the
    file. *)
Theorem loaded_shape path w a :
  fst (csv_loader path w) = Ok a ->
  exists text,
    files (env w) path = Some text /\
    hd 0 (shape a) = length (csv_reader text) /\
    match csv_reader text with
    | [] => shape a = [0]
    | row :: reader =>
        if same_length row reader
        then shape a = [length (csv_reader text); length row]
        else shape a = [length (csv_reader text)] /\ ragged_raises = false
    end.
Proof.
  rewrite csv_loader_eq.
  destruct (files (env w) path) as [text|]; [|discriminate].
  cbn [fst]. intros Ha. exists text. split; [reflexivity|].
  unfold array_of in Ha.
  destruct (for_rows (csv_reader text) []) as [data|] eqn:Hd; [|discriminate].
  pose proof (rows_keep_lengths _ _ (for_rows_inv _ _ Hd)) as Hkeep.
  pose proof (Forall2_same_length _ _ _ Hkeep) as Hlen.
  destruct Hkeep as [|row r reader data Hr Hkeep].
  - injection Ha as <-. auto.
  - unfold np_array in Ha.
    rewrite (same_length_transfer row r reader data Hr Hkeep) in Ha.
    destruct (same_length row reader).
    + injection Ha as <-. simpl in *. rewrite Hr. split; congruence.
    + destruct ragged_raises; [discriminate|].
      injection Ha as <-. simpl in *. repeat split; congruence.
Qed.

(** ** Files and failures *)

(** X6.  The script leaks no file handle: at every point of every run at
    most one file is open, and when the run ends, normally or by an
    exception raised inside or after a [with] block, no file is open. *)
Theorem files_are_closed e :
  still_open (files e) (trace e) [] = [] /\
  forall n,
    length (still_open (files e) (firstn n (trace e)) []) <= 1.
Proof.
  run_tree e; (split; [simpl; rewrite ?F1, ?F2; reflexivity|]);
    intros n; do 11 (try destruct n as [|n]);
    simpl; rewrite ?F1, ?F2; simpl; auto.
Qed.

Lemma array_of_failure text x : array_of text = Raise x -> x = ValueError.
Proof.
  unfold array_of, np_array.
  destruct (for_rows (csv_reader text) []) as [[|r rs]|x'] eqn:H.
  - discriminate.
  - destruct (same_length r rs); [discriminate|].
    destruct ragged_raises; congruence.
  - intros E. injection E as <-. eapply for_rows_raises; eauto.
Qed.

(** The exception of a failed leaf of the run, made explicit. *)
Ltac name_failure :=
  repeat match goal with
  | A : array_of _ = Raise ?x |- _ =>
      is_var x; pose proof (array_of_failure _ _ A); subst x
  | X : column _ _ = Raise ?x |- _ =>
      is_var x; pose proof (column_raises _ _ _ X); subst x
  end.

(** X7.  The exception of a failed run tells how far the run went.
    [FileNotFoundError]: a file is missing, "initial.csv", or "wsp.csv"
    once the first dataset was loaded.  [FileNotFoundError] and
    [ValueError] are raised while loading, before any call to the charting
    library.  [IndexError] is raised exactly when both datasets were loaded
    and the run still fails: the figure was created and is never
    displayed. *)
Theorem failure_tells_the_stage e :
  (outcome e = Raise FileNotFoundError <->
   files e "initial.csv" = None \/
   ((exists a, fst (csv_loader "initial.csv" (launch e)) = Ok a) /\
    files e "wsp.csv" = None)) /\
  (outcome e = Raise FileNotFoundError \/ outcome e = Raise ValueError ->
   no_plot_call (trace e) = true) /\
  (outcome e = Raise IndexError <->
   (exists a1 a2, fst (load_datasets (launch e)) = Ok (a1, a2)) /\
   outcome e <> Ok tt) /\
  (outcome e = Raise IndexError ->
   In EvSubplots (trace e) /\ ~ In EvShow (trace e)).
Proof.
  rewrite (csv_loader_eq "initial.csv" (launch e)). cbn [launch env].
  run_tree e; name_failure;
    repeat split; try discriminate; try reflexivity;
    try (intros [E|E]; discriminate E);
    try (intros [E|[[b E] E']]; discriminate);
    try (intros [[b1 [b2 E]] E']; discriminate || congruence);
    try (simpl; intuition discriminate);
    eauto.
Qed.

(** X9.  When the first dataset cannot be loaded, the second file plays no
    part: the run ends with the exception of the first loader, having only
    touched "initial.csv", and it is the same run whatever "wsp.csv" holds
    or whether it exists. *)
Theorem first_failure_hides_second_file e exc :
  fst (csv_loader "initial.csv" (launch e)) = Raise exc ->
  outcome e = Raise exc /\
  opened (trace e) = ["initial.csv"] /\
  forall e',
    files e' "initial.csv" = files e "initial.csv" ->
    outcome e' = outcome e /\ trace e' = trace e.
Proof.
  rewrite (csv_loader_eq "initial.csv" (launch e)). cbn [launch env].
  intros H. split; [|split].
  - revert H. run_tree e; intros H; cbn [fst] in H; congruence.
  - revert H. run_tree e; intros H; cbn [fst] in H;
      try discriminate; reflexivity.
  - intros e' Hsame. revert H. unfold outcome, trace.
    rewrite (run_eq e), (run_eq e'), !load_datasets_eq, Hsame.
    destruct (files e "initial.csv") as [t1|]; [|split; reflexivity].
    destruct (array_of t1); [discriminate|split; reflexivity].
Qed.

End Properties.

(** ** The NumPy release *)

Lemma plottable_columns (R : Runtime) (raises raises' : bool) text a x y :
  @array_of (with_numpy R raises) text = Ok a ->
  @column (with_numpy R raises) a 0 = Ok x ->
  @column (with_numpy R raises) a 1 = Ok y ->
  exists a' x' y',
    @array_of (with_numpy R raises') text = Ok a' /\
    @column (with_numpy R raises') a' 0 = Ok x' /\
    @column (with_numpy R raises') a' 1 = Ok y'.
Proof.
  intros A X Y.
  apply (@array_of_plottable (with_numpy R raises')).
  change (@plottable (with_numpy R raises) text = true).
  apply (@array_of_plottable (with_numpy R raises)).
  exists a, x, y. auto.
Qed.

Lemma completion_carries_over (R : Runtime) (raises raises' : bool) e :
  @outcome (with_numpy R raises) e = Ok tt ->
  @outcome (with_numpy R raises') e = Ok tt.
Proof.
  rewrite (@completes_iff_columns (with_numpy R raises)),
          (@completes_iff_columns (with_numpy R raises')).
  intros (t1 & t2 & a1 & a2 & x1 & y1 & x2 & y2 &
          F1 & F2 & A1 & A2 & X1 & Y1 & X2 & Y2).
  destruct (plottable_columns R raises raises' _ _ _ _ A1 X1 Y1)
    as (b1 & u1 & v1 & B1 & U1 & V1).
  destruct (plottable_columns R raises raises' _ _ _ _ A2 X2 Y2)
    as (b2 & u2 & v2 & B2 & U2 & V2).
  exists t1, t2, b1, b2, u1, v1, u2, v2. repeat split; auto.
Qed.

(** X8.  Whether a run completes does not depend on the NumPy release: on
    rows of unequal lengths a NumPy from 1.24 on fails when the array is
    built and an earlier one when a column is taken, and on every other
    input the release plays no part in the outcome being a success or a
    failure. *)
Theorem numpy_release_keeps_success (R : Runtime) e :
  (@outcome (with_numpy R true) e = Ok tt <->
   @outcome (with_numpy R false) e = Ok tt) /\
  @failed unit (@outcome (with_numpy R true) e) =
  @failed unit (@outcome (with_numpy R false) e).
Proof.
  assert (Hiff : @outcome (with_numpy R true) e = Ok tt <->
                 @outcome (with_numpy R false) e = Ok tt).
  { split; apply completion_carries_over. }
  split; [exact Hiff|].
  destruct (@outcome (with_numpy R true) e) as [[]|x] eqn:E1;
    destruct (@outcome (with_numpy R false) e) as [[]|x'] eqn:E2;
    try reflexivity.
  - destruct Hiff as [H _]. discriminate (H eq_refl).
  - destruct Hiff as [_ H]. discriminate (H eq_refl).
Qed.

(** * The script on concrete files *)

Section Runs.

Import Sample.

#[local] Existing Instance modern.

Local Open Scope Z_scope.

(** Two well-formed files of two rows each. *)
Lemma loader_builds_N_by_2_witness :
  let e := environment (Some two_columns) (Some two_columns) in
  (well_formed two_columns = true /\ csv_reader two_columns <> []) /\
  exists a1 a2,
    fst (load_datasets (launch e)) = Ok (a1, a2) /\
    holds_table two_columns a1 /\ holds_table two_columns a2.
Proof.
  split; [split; [reflexivity | discriminate]|].
  apply (loader_builds_N_by_2
           (environment (Some two_columns) (Some two_columns))
           two_columns two_columns);
    reflexivity || discriminate.
Defined.

(** C1 as stated fails on files with no row: both are well formed, both
    load, and the arrays have shape (0,), not (0, 2). *)
Lemma empty_file_is_not_N_by_2 :
  let e := environment (Some "") (Some "") in
  well_formed "" = true /\
  fst (load_datasets (launch e)) = Ok (Array1 [], Array1 []) /\
  shape (Array1 []) = [0%nat] /\
  ~ holds_table "" (Array1 []).
Proof.
  repeat split. intros [Hshape _]. discriminate Hshape.
Qed.

(** A one-column second file. *)
Lemma mismatch_stops_the_script_witness :
  let e := environment (Some two_columns) (Some one_column) in
  mismatched one_column = true /\
  failed (outcome e) = true /\
  ~ In EvShow (trace e) /\
  ~ In "WSP"%string (scatter_labels (trace e)).
Proof.
  split; [reflexivity|].
  destruct (mismatch_stops_the_script
              (environment (Some two_columns) (Some one_column))
              "wsp.csv" one_column ltac:(now right)
              ltac:(reflexivity) ltac:(reflexivity))
    as (Hfail & Hshow & _ & Hwsp).
  repeat split; auto.
Defined.

(** C2 as stated fails in two ways.  On files whose rows all have three
    columns no row has two columns, and the run completes with both scatter
    calls and the display.  On a one-column "wsp.csv" the run fails, but
    only after the scatter call on the initial dataset has been made. *)
Lemma mismatch_reaches_plot_calls :
  let e := environment (Some three_columns) (Some three_columns) in
  let e' := environment (Some two_columns) (Some one_column) in
  (not_all_two three_columns = true /\
   outcome e = Ok tt /\
   trace e =
     [EvOpen "initial.csv" ReadText; EvClose "initial.csv";
      EvPrint (Array2 3 [[1; 2; 3]; [4; 5; 6]]);
      EvOpen "wsp.csv" ReadText; EvClose "wsp.csv"; EvSubplots;
      EvScatter [1; 4] [2; 5] "Initial" None;
      EvScatter [1; 4] [2; 5] "WSP" (Some "+"%string);
      EvLegend; EvShow]) /\
  (not_all_two one_column = true /\
   outcome e' = Raise IndexError /\
   scatters (trace e') = [EvScatter [1; 3] [2; 4] "Initial" None]).
Proof. repeat split. Qed.

Lemma scatter_called_once_per_dataset_witness :
  let e := environment (Some two_columns) (Some two_columns) in
  outcome e = Ok tt /\
  exists a1 a2 x1 y1 x2 y2,
    fst (load_datasets (launch e)) = Ok (a1, a2) /\
    column a1 0 = Ok x1 /\ column a1 1 = Ok y1 /\
    column a2 0 = Ok x2 /\ column a2 1 = Ok y2 /\
    scatters (trace e) =
      [EvScatter x1 y1 "Initial" None;
       EvScatter x2 y2 "WSP" (Some "+"%string)].
Proof.
  split; [reflexivity|].
  apply (scatter_called_once_per_dataset
           (environment (Some two_columns) (Some two_columns))).
  reflexivity.
Defined.

(** A second file with the field "x". *)
Lemma malformed_row_stops_the_script_witness :
  let e := environment (Some two_columns) (Some bad_field) in
  malformed bad_field = true /\
  failed (outcome e) = true /\
  outcome e = Raise ValueError.
Proof.
  split; [reflexivity|].
  destruct (malformed_row_stops_the_script
              (environment (Some two_columns) (Some bad_field))
              "wsp.csv" bad_field ltac:(now right)
              ltac:(reflexivity) ltac:(reflexivity))
    as (_ & Hfail & _ & Hwsp).
  split; [exact Hfail|].
  exact (proj1 (Hwsp ltac:(reflexivity) _ ltac:(reflexivity))).
Defined.

(** No "wsp.csv". *)
Lemma missing_file_stops_the_script_witness :
  let e := environment (Some two_columns) None in
  failed (outcome e) = true /\
  outcome e = Raise FileNotFoundError.
Proof.
  destruct (missing_file_stops_the_script
              (environment (Some two_columns) None)
              "wsp.csv" ltac:(now right) ltac:(reflexivity))
    as (_ & Hfail & _ & Hwsp).
  split; [exact Hfail|].
  exact (proj1 (Hwsp ltac:(reflexivity) _ ltac:(reflexivity))).
Defined.

(** C6 as stated fails on a run that stops in the first loader:
    "wsp.csv" is there and is never opened. *)
Lemma failed_run_reads_one_file :
  let e := environment None (Some two_columns) in
  files e "wsp.csv" = Some two_columns /\
  outcome e = Raise FileNotFoundError /\
  opened (trace e) = ["initial.csv"%string] /\
  opened (trace e) <> ["initial.csv"; "wsp.csv"]%string.
Proof. repeat split. discriminate. Qed.

(** C8 as stated fails on every run that loads the first file: the
    array goes to standard output, which is neither the plot window nor the
    exit status. *)
Lemma prints_on_standard_output :
  let e := environment (Some two_columns) (Some two_columns) in
  outcome e = Ok tt /\
  In (EvPrint (Array2 2 [[1; 2]; [3; 4]])) (trace e) /\
  output_of (EvPrint (Array2 2 [[1; 2]; [3; 4]])) = Stdout /\
  ~ (forall ev, In ev (trace e) ->
       output_of ev = NoOutput \/ output_of ev = Window).
Proof.
  split; [reflexivity|]. split; [simpl; auto|]. split; [reflexivity|].
  intros H.
  destruct (H _ (or_intror (or_intror (or_introl eq_refl)))) as [E|E];
    discriminate E.
Qed.

(** C9 as stated fails from NumPy 1.24 on, on a first file whose rows
    differ in length: the file is parsed successfully (every field of every
    row converts and the loop of lines 9-10 ends with both rows), then
    [np.array] raises on line 11 and the run stops before the print of
    line 12, with nothing printed.  A NumPy before 1.24 builds the array
    and prints it. *)
Lemma ragged_first_file_is_not_printed :
  let e := environment (Some ragged_rows) (Some two_columns) in
  files e "initial.csv" = Some ragged_rows /\
  malformed ragged_rows = false /\
  converts ragged_rows = true /\
  for_rows (csv_reader ragged_rows) [] = Ok [[1; 2]; [3]] /\
  outcome e = Raise ValueError /\
  trace e = [EvOpen "initial.csv" ReadText; EvClose "initial.csv"] /\
  printed (trace e) = [] /\
  printed (trace (R := legacy) e) = [@Array1 legacy [[1; 2]; [3]]].
Proof. repeat split. Qed.

Lemma prints_initial_before_second_read_witness :
  let e := environment (Some two_columns) (Some bad_field) in
  printed (trace e) = [Array2 2 [[1; 2]; [3; 4]]] /\
  exists rest,
    trace e =
      [EvOpen "initial.csv" ReadText; EvClose "initial.csv";
       EvPrint (Array2 2 [[1; 2]; [3; 4]]);
       EvOpen "wsp.csv" ReadText] ++ rest /\
    printed rest = [] /\ opened rest = [].
Proof.
  apply (prints_initial_before_second_read
           (environment (Some two_columns) (Some bad_field))).
  reflexivity.
Defined.

(** An empty second file. *)
Lemma empty_file_fails_at_indexing_witness :
  let e := environment (Some two_columns) (Some "") in
  csv_reader "" = [] /\
  failed (outcome e) = true /\
  outcome e = Raise IndexError /\ ~ In EvShow (trace e).
Proof.
  split; [reflexivity|].
  destruct (empty_file_fails_at_indexing
              (environment (Some two_columns) (Some ""))
              "wsp.csv" "" ltac:(now right)
              ltac:(reflexivity) ltac:(reflexivity))
    as (_ & _ & _ & Hfail & Hboth).
  split; [exact Hfail|].
  exact (Hboth _ _ ltac:(reflexivity)).
Defined.

(** Three columns in the first file: the third one is not plotted. *)
Lemma scattered_series_are_first_two_fields_witness :
  let e := environment (Some three_columns) (Some two_columns) in
  outcome e = Ok tt /\
  exists x1 y1 x2 y2,
    field_floats 0 (csv_reader three_columns) = Some x1 /\
    field_floats 1 (csv_reader three_columns) = Some y1 /\
    field_floats 0 (csv_reader two_columns) = Some x2 /\
    field_floats 1 (csv_reader two_columns) = Some y2 /\
    length x1 = length (csv_reader three_columns) /\
    length x2 = length (csv_reader two_columns) /\
    scatters (trace e) =
      [EvScatter x1 y1 "Initial" None;
       EvScatter x2 y2 "WSP" (Some "+"%string)].
Proof.
  split; [reflexivity|].
  apply (scattered_series_are_first_two_fields
           (environment (Some three_columns) (Some two_columns))
           three_columns two_columns);
    reflexivity.
Defined.

Lemma loader_keeps_every_field_witness :
  let w := launch (environment (Some three_columns) None) in
  (uniform 3 three_columns = true /\ converts three_columns = true) /\
  exists a,
    fst (csv_loader "initial.csv" w) = Ok a /\
    holds_grid 3 three_columns a.
Proof.
  split; [split; reflexivity|].
  apply (loader_keeps_every_field "initial.csv"
           (launch (environment (Some three_columns) None))
           three_columns 3);
    reflexivity || discriminate.
Defined.

(** Rows of unequal lengths under a NumPy before 1.24: shape (2,). *)
Lemma loaded_shape_witness :
  let w := @launch legacy (environment (Some ragged_rows) None) in
  exists text,
    files (env w) "initial.csv" = Some text /\
    hd 0%nat (shape (@Array1 legacy [[1; 2]; [3]])) =
      length (@csv_reader legacy text) /\
    match @csv_reader legacy text with
    | [] => shape (@Array1 legacy [[1; 2]; [3]]) = [0%nat]
    | row :: reader =>
        if same_length row reader
        then shape (@Array1 legacy [[1; 2]; [3]]) =
               [length (@csv_reader legacy text); length row]
        else shape (@Array1 legacy [[1; 2]; [3]]) =
               [length (@csv_reader legacy text)] /\
             @ragged_raises legacy = false
    end.
Proof.
  apply (@loaded_shape legacy "initial.csv"
           (@launch legacy (environment (Some ragged_rows) None))).
  reflexivity.
Defined.

(** A first file with the field "x", with and without a second file. *)
Lemma first_failure_hides_second_file_witness :
  let e := environment (Some bad_field) (Some two_columns) in
  outcome e = Raise ValueError /\
  opened (trace e) = ["initial.csv"%string] /\
  forall e',
    files e' "initial.csv" = files e "initial.csv" ->
    outcome e' = outcome e /\ trace e' = trace e.
Proof.
  apply (first_failure_hides_second_file
           (environment (Some bad_field) (Some two_columns)) ValueError).
  reflexivity.
Defined.

End Runs.
